(** * Beaver Habits: the session guard and the login / registration handlers

    A shallow embedding of [beaverhabits/gui.py]: the page constants, the
    [AuthMiddleware] HTTP middleware, [login_page] with its [try_login]
    callback and [register] with its [try_register] callback.

    Python values are embedded as follows.
    - [str] and [bytes] are both [string]: a Rocq string is a sequence of
      bytes, a Python [str] is held by its UTF-8 encoding, so [encode] is
      the identity.
    - [app.storage.user], a dict with string keys, is a [gmap string pyval].
    - [request.scope["headers"]], a list of pairs of byte strings, is a
      [list (string * string)].
    - awaited calls into [beaverhabits.app.auth] are oracles gathered in
      the record [AuthService]; every call is logged in the world.
    - handlers run in a state-and-exception monad [M] over [World];
      mutations made before an exception is raised persist, as in Python. *)

From Stdlib Require Import Ascii String.
From stdpp Require Import gmap strings list fin_maps.

Open Scope string_scope.

(** ** Python values and exceptions *)

(** The values kept in the session: [None] or a [str]. *)
Inductive pyval : Type :=
| PyNone
| PyStr (s : string).

Global Instance pyval_eq_dec : EqDecision pyval.
Proof. solve_decision. Defined.

(** [str(v)], which is also how an f-string formats [v]. *)
Definition py_str (v : pyval) : string :=
  match v with
  | PyNone => "None"
  | PyStr s => s
  end.

(** [s.encode()] on the byte-level representation. *)
Definition encode (s : string) : string := s.

(** An instance of Python's [Exception], carrying [str(e)]. *)
Record exn : Type := Exception { exn_message : string }.

Inductive result (A : Type) : Type :=
| Ok (a : A)
| Raise (e : exn).
Arguments Ok {A} a.
Arguments Raise {A} e.

(** ** String operations used by the module *)

Module Str.

(** [s.startswith(prefix)] *)
Fixpoint startswith (s prefix : string) {struct prefix} : bool :=
  match prefix with
  | EmptyString => true
  | String a prefix' =>
      match s with
      | EmptyString => false
      | String b s' => Ascii.eqb a b && startswith s' prefix'
      end
  end.

(** [s[n:]] *)
Fixpoint drop (n : nat) (s : string) : string :=
  match n with
  | O => s
  | S n' =>
      match s with
      | EmptyString => EmptyString
      | String _ s' => drop n' s'
      end
  end.

(** [s.removeprefix(prefix)] *)
Definition removeprefix (s prefix : string) : string :=
  if startswith s prefix then drop (String.length prefix) s else s.

(** [s.endswith("/")] *)
Fixpoint endswith_sep (s : string) : bool :=
  match s with
  | EmptyString => false
  | String c EmptyString => Ascii.eqb c "/"%char
  | String _ s' => endswith_sep s'
  end.

(** [x in xs] for a sequence (or generator) of strings. *)
Definition py_in (x : string) (xs : list string) : bool :=
  existsb (String.eqb x) xs.

End Str.

(** [os.path.join(a, *p)] of [posixpath]. *)
Fixpoint os_path_join (a : string) (p : list string) : string :=
  match p with
  | [] => a
  | b :: p' =>
      let path :=
        if Str.startswith b "/" then b
        else if (String.eqb a "" || Str.endswith_sep a)%bool then a +:+ b
        else a +:+ "/" +:+ b in
      os_path_join path p'
  end.

(** ** Module constants *)

Definition MOUNT_PATH : string := "/gui".
Definition INDEX_PATH : string := MOUNT_PATH.
Definition LOGIN_PATH : string := "/gui/login".
Definition REGISTER_PATH : string := "/gui/register".
Definition UNRESTRICTED_PAGE_ROUTES : list string := [LOGIN_PATH; REGISTER_PATH].

(** ** The world the handlers act on *)

(** [User] of [app.db]; the module only reads [user.email]. *)
Record User : Type := mkUser { email : string }.

(** Calls into [beaverhabits.app.auth], in the order they were awaited. *)
Inductive auth_call : Type :=
| Call_user_authenticate (email password : string)
| Call_user_create (email password : string)
| Call_user_create_token (user : User)
| Call_user_check_token (token : pyval).

(** The NiceGUI elements the pages create (styling classes left out). *)
#[warnings="-register-all"]
Inductive element : Type :=
| Card (children : list element)
| Div (children : list element)
| Row (children : list element)
| Input (label : string) (password : bool)
| Button (text : string)
| Separator
| Label (text : string)
| Link (text target : string).

(** What a handler does to the client. *)
Inductive ui_event : Type :=
| Render (e : element)
| Notify (message : string) (color : option string)
| NavigateTo (target : pyval).

Record World : Type := mkWorld {
  storage_user : gmap string pyval;        (* app.storage.user *)
  scope_headers : list (string * string);  (* request.scope["headers"] *)
  ui_events : list ui_event;               (* what was shown to the user *)
  auth_calls : list auth_call              (* awaited auth calls *)
}.

(** The awaited functions imported from [.app.auth]. *)
Record AuthService : Type := mkAuthService {
  user_authenticate : string -> string -> result (option User);
  user_create : string -> string -> result (option User);
  user_create_token : User -> result (option string);
  user_check_token : pyval -> result bool
}.

(** The request as the middleware reads it: [request.url.path] and
    [request.scope["root_path"]] (always set under a mount). *)
Record Request : Type := mkRequest {
  url_path : string;
  scope_root_path : string
}.

(** What the module takes from the framework: the values of
    [Client.page_routes] and [request.url_for]. *)
Record Framework : Type := mkFramework {
  page_routes : list string;
  url_for : Request -> string -> string
}.

Inductive Response : Type :=
| RedirectResponse (url : string).

(** How the middleware ends: it returns a response of its own, or it
    returns [await call_next(request)]. *)
Inductive Action : Type :=
| Return (r : Response)
| CallNext.

(** ** The handler monad *)

Definition M (A : Type) : Type := World -> result A * World.

Definition ret {A} (a : A) : M A := fun w => (Ok a, w).

Definition raise {A} (e : exn) : M A := fun w => (Raise e, w).

Definition bind {A B} (m : M A) (k : A -> M B) : M B :=
  fun w =>
    match m w with
    | (Ok a, w') => k a w'
    | (Raise e, w') => (Raise e, w')
    end.

(** [try: m  except Exception as e: handler(e)  else: orelse(a)] *)
Definition try_except_else {A B} (m : M A) (handler : exn -> M B)
    (orelse : A -> M B) : M B :=
  fun w =>
    match m w with
    | (Ok a, w') => orelse a w'
    | (Raise e, w') => handler e w'
    end.

Notation "'let*' x ':=' m 'in' k" := (bind m (fun x => k))
  (at level 10, x name, m at level 100, k at level 200).
Notation "m ';;;' k" := (bind m (fun _ => k))
  (at level 100, k at level 200, right associativity).

(** *** Primitive operations *)

Section Primitives.

(** [app.storage.user.get(key, default)] *)
Definition storage_get (key : string) (dflt : pyval) : M pyval :=
  fun w => (Ok (default dflt (storage_user w !! key)), w).

(** [app.storage.user[key] = value] and [app.storage.user.update({key: value})] *)
Definition storage_set (key : string) (value : pyval) : M unit :=
  fun w =>
    (Ok tt, mkWorld (<[key := value]> (storage_user w)) (scope_headers w)
                    (ui_events w) (auth_calls w)).

(** reading [request.scope["headers"]] *)
Definition get_headers : M (list (string * string)) :=
  fun w => (Ok (scope_headers w), w).

(** [request.scope["headers"] = hs] *)
Definition set_headers (hs : list (string * string)) : M unit :=
  fun w => (Ok tt, mkWorld (storage_user w) hs (ui_events w) (auth_calls w)).

(** [request.scope["headers"].append(h)] *)
Definition append_header (h : string * string) : M unit :=
  fun w =>
    (Ok tt, mkWorld (storage_user w) (scope_headers w ++ [h])
                    (ui_events w) (auth_calls w)).

(** a [ui.*] call with a visible effect *)
Definition ui (ev : ui_event) : M unit :=
  fun w =>
    (Ok tt, mkWorld (storage_user w) (scope_headers w)
                    (ui_events w ++ [ev]) (auth_calls w)).

(** [await f(...)] for a function of [.app.auth]: the call is logged and
    its outcome, a value or an exception, is the oracle's. *)
Definition await {A} (call : auth_call) (outcome : result A) : M A :=
  fun w =>
    (outcome, mkWorld (storage_user w) (scope_headers w)
                      (ui_events w) (auth_calls w ++ [call])).

End Primitives.

(** ** The handlers of [gui.py] *)

Section Handlers.

Variable svc : AuthService.
Variable fw : Framework.

Definition await_user_authenticate (email password : string) : M (option User) :=
  await (Call_user_authenticate email password) (user_authenticate svc email password).

Definition await_user_create (email password : string) : M (option User) :=
  await (Call_user_create email password) (user_create svc email password).

Definition await_user_create_token (user : User) : M (option string) :=
  await (Call_user_create_token user) (user_create_token svc user).

Definition await_user_check_token (token : pyval) : M bool :=
  await (Call_user_check_token token) (user_check_token svc token).

(** [token = user and await user_create_token(user)] *)
Definition token_for (user : option User) : M (option string) :=
  match user with
  | None => ret None
  | Some u => await_user_create_token u
  end.

(** *** [login_page] *)

(** The callback [try_login]; [email] and [password] are the values of
    the two inputs when the event fires. *)
Definition try_login (email password : string) : M unit :=
  let* user := await_user_authenticate email password in
  let* token := token_for user in
  match token with
  | Some t =>
      storage_set "auth_token" (PyStr t) ;;;
      let* target := storage_get "referrer_path" (PyStr "/") in
      ui (NavigateTo target)
  | None =>
      ui (Notify "email or password wrong!" (Some "negative"))
  end.

Definition login_form : element :=
  Card [ Input "email" false;
         Input "password" true;
         Button "Continue";
         Separator;
         Row [ Label "New around here?";
               Link "Create account" "/register" ] ].

Definition login_page : M (option Response) :=
  let* token := storage_get "auth_token" PyNone in
  let* valid := await_user_check_token token in
  if valid then ret (Some (RedirectResponse INDEX_PATH))
  else
    ui (Render login_form) ;;;
    ret None.

(** *** [register] *)

Definition try_register (email password : string) : M unit :=
  try_except_else (await_user_create email password)
    (fun e => ui (Notify (exn_message e) None))
    (fun user =>
       let* token := token_for user in
       match token with
       | Some t =>
           storage_set "auth_token" (PyStr t) ;;;
           let* target := storage_get "referrer_path" (PyStr "/") in
           ui (NavigateTo target)
       | None => ret tt
       end).

Definition register_form : element :=
  Card [ Input "email" false;
         Input "password" true;
         Div [ Button "Register" ];
         Separator;
         Row [ Label "Already have an account?";
               Link "Log in" "/login" ] ].

Definition register : M unit :=
  ui (Render register_form).

(** *** [AuthMiddleware] *)

(** [(os.path.join(MOUNT_PATH + x) for x in Client.page_routes.values())] *)
Definition client_page_routes : list string :=
  map (fun x => os_path_join (MOUNT_PATH +:+ x) []) (page_routes fw).

Definition is_authorization (e : string * string) : bool :=
  String.eqb (fst e) "authorization".

(** Lines 128-137: replace the authorization header and go on. *)
Definition forward : M Action :=
  let* headers := get_headers in
  set_headers (List.filter (fun e => negb (is_authorization e)) headers) ;;;
  let* token := storage_get "auth_token" PyNone in
  append_header ("authorization", encode ("Bearer " +:+ py_str token)) ;;;
  ret CallNext.

Definition AuthMiddleware (request : Request) : M Action :=
  let* token := storage_get "auth_token" PyNone in
  let* valid := await_user_check_token token in
  if negb valid then
    if Str.py_in (url_path request) client_page_routes
       && negb (Str.py_in (url_path request) UNRESTRICTED_PAGE_ROUTES)
    then
      let root_path := scope_root_path request in
      storage_set "referrer_path"
        (PyStr (Str.removeprefix (url_path request) root_path)) ;;;
      ret (Return (RedirectResponse (url_for fw request "login_page")))
    else forward
  else forward.

(** The middleware followed by the rest of the stack. *)
Definition handle (call_next : Request -> M Response) (request : Request)
    : M Response :=
  let* action := AuthMiddleware request in
  match action with
  | Return r => ret r
  | CallNext => call_next request
  end.

End Handlers.

(** ** The application as [gui.py] sets it up *)

(** The pages registered with [@ui.page], by function name. *)
Definition pages : list (string * string) :=
  [ ("index_page", "/"); ("demo", "/demo");
    ("login_page", "/login"); ("register", "/register") ].

(** [ui.run_with(fastapi_app, mount_path=MOUNT_PATH, ...)]: the pages are
    served below [MOUNT_PATH], and a route is named after its function.
    Only the path of the URL is kept.  Starlette raises for a name that
    no route has; the module asks for [login_page] only. *)
Definition gui_framework : Framework :=
  {| page_routes := map snd pages;
     url_for := fun _ name =>
       match List.find (fun p => String.eqb (fst p) name) pages with
       | Some p => MOUNT_PATH +:+ snd p
       | None => ""
       end |}.

(** ** The token check *)

(** What the Auth Service knows about tokens: whether its store can be
    reached, and the tokens it holds as valid. *)
Record TokenStore : Type := mkTokenStore {
  store_available : bool;
  valid_tokens : list string
}.

(** Modelled from the spec: [user_check_token] of [beaverhabits/app/auth.py],
    which is not among the sources.  The check answers whether the stored
    token is currently valid; an absent token, an invalid token and a store
    that cannot be reached all come out as "not authenticated", and the
    check never raises to its caller. *)
Definition spec_user_check_token (store : TokenStore) (token : pyval)
    : result bool :=
  match token with
  | PyNone => Ok false
  | PyStr t => Ok (store_available store && Str.py_in t (valid_tokens store))
  end.

(** An Auth Service whose token check is the one above; the other three
    calls stay arbitrary. *)
Definition with_spec_check (store : TokenStore) (svc : AuthService) : AuthService :=
  {| user_authenticate := user_authenticate svc;
     user_create := user_create svc;
     user_create_token := user_create_token svc;
     user_check_token := spec_user_check_token store |}.

(** ** A small Auth Service to run the handlers on *)

Module Example.

Definition alice : User := mkUser "alice@example.org".

(** One account, [alice] with password [secret]; creating it again is
    refused; the only token that passes the check is [tok-alice]. *)
Definition service : AuthService :=
  {| user_authenticate := fun email password =>
       if String.eqb email "alice@example.org" && String.eqb password "secret"
       then Ok (Some alice) else Ok None;
     user_create := fun email _ =>
       if String.eqb email "alice@example.org"
       then Raise (Exception "REGISTER_USER_ALREADY_EXISTS")
       else Ok (Some (mkUser email));
     user_create_token := fun u =>
       if String.eqb (email u) "alice@example.org"
       then Ok (Some "tok-alice") else Ok None;
     user_check_token := fun token =>
       Ok (bool_decide (token = PyStr "tok-alice")) |}.

Definition world (session : gmap string pyval) (headers : list (string * string))
    : World :=
  mkWorld session headers [] [].

(** A fresh session, and one that holds [auth_token = None]. *)
Definition no_session : gmap string pyval := ∅.
Definition none_session : gmap string pyval := {[ "auth_token" := PyNone ]}.
Definition stale_session : gmap string pyval := {[ "auth_token" := PyStr "expired" ]}.
Definition alice_session : gmap string pyval := {[ "auth_token" := PyStr "tok-alice" ]}.

Definition client_headers : list (string * string) :=
  [ ("host", "example.org"); ("authorization", "Basic Zm9vOmJhcg==");
    ("accept", "text/html"); ("authorization", "Bearer forged") ].

Definition request (path : string) : Request := mkRequest path MOUNT_PATH.

(** A service that accepts every sign-up and hands out [tok-<email>]. *)
Definition signup_service : AuthService :=
  {| user_authenticate := fun _ _ => Ok None;
     user_create := fun email _ => Ok (Some (mkUser email));
     user_create_token := fun u => Ok (Some ("tok-" +:+ email u));
     user_check_token := fun token =>
       Ok (match token with
           | PyStr t => Str.startswith t "tok-"
           | PyNone => false
           end) |}.

(** A service whose database cannot be reached: sign-up goes through the
    in-memory part, every other call raises. *)
Definition broken_service : AuthService :=
  {| user_authenticate := fun _ _ => Raise (Exception "database is locked");
     user_create := fun email _ => Ok (Some (mkUser email));
     user_create_token := fun _ => Raise (Exception "database is locked");
     user_check_token := fun _ => Raise (Exception "database is locked") |}.

(** A session that was sent to the login page from [/gui/demo]. *)
Definition referred_session : gmap string pyval :=
  {[ "referrer_path" := PyStr "/demo" ]}.

End Example.

(** ** Reading the outcome of the middleware *)

(** The token the handlers pass to the check: [app.storage.user.get("auth_token", None)]. *)
Definition session_token (w : World) : pyval :=
  default PyNone (storage_user w !! "auth_token").

(** The guard of lines 118-121 as a proposition: the path is a registered
    page path but not an unrestricted one. *)
Definition protected (fw : Framework) (path : string) : Prop :=
  path ∈ client_page_routes fw ∧ path ∉ UNRESTRICTED_PAGE_ROUTES.

Definition guard (fw : Framework) (path : string) : bool :=
  Str.py_in path (client_page_routes fw)
  && negb (Str.py_in path UNRESTRICTED_PAGE_ROUTES).

(** The header list the middleware leaves on a request it lets through. *)
Definition bearer_headers (token : pyval) (headers : list (string * string))
    : list (string * string) :=
  List.filter (fun e => negb (is_authorization e)) headers
  ++ [("authorization", "Bearer " +:+ py_str token)].

(** The three worlds a run of the middleware can end in. *)
Definition checked (w : World) : World :=
  mkWorld (storage_user w) (scope_headers w) (ui_events w)
          (auth_calls w ++ [Call_user_check_token (session_token w)]).

Definition redirected (request : Request) (w : World) : World :=
  mkWorld (<["referrer_path" :=
              PyStr (Str.removeprefix (url_path request) (scope_root_path request))]>
             (storage_user w))
          (scope_headers w) (ui_events w)
          (auth_calls w ++ [Call_user_check_token (session_token w)]).

Definition forwarded (w : World) : World :=
  mkWorld (storage_user w) (bearer_headers (session_token w) (scope_headers w))
          (ui_events w)
          (auth_calls w ++ [Call_user_check_token (session_token w)]).

(** The same world with [auth_token] taken out of the session. *)
Definition without_token (w : World) : World :=
  mkWorld (delete "auth_token" (storage_user w)) (scope_headers w)
          (ui_events w) (auth_calls w).

(** The runs of the middleware, by the branch taken. *)
Inductive mw_run (svc : AuthService) (fw : Framework) (request : Request)
    (w : World) : result Action -> World -> Prop :=
| mw_raise e :
    user_check_token svc (session_token w) = Raise e ->
    mw_run svc fw request w (Raise e) (checked w)
| mw_redirect :
    user_check_token svc (session_token w) = Ok false ->
    guard fw (url_path request) = true ->
    mw_run svc fw request w
      (Ok (Return (RedirectResponse (url_for fw request "login_page"))))
      (redirected request w)
| mw_forward valid :
    user_check_token svc (session_token w) = Ok valid ->
    negb valid && guard fw (url_path request) = false ->
    mw_run svc fw request w (Ok CallNext) (forwarded w).

(** ** Lemmas on the string operations *)

Lemma py_in_elem_of (x : string) (xs : list string) :
  Str.py_in x xs = true ↔ x ∈ xs.
Proof.
  unfold Str.py_in. rewrite existsb_exists. split.
  - intros (y & Hy & Heq). apply String.eqb_eq in Heq. subst y.
    by apply list_elem_of_In.
  - intros Hx. exists x. split; [by apply list_elem_of_In | apply String.eqb_refl].
Qed.

Lemma py_in_not_elem_of (x : string) (xs : list string) :
  Str.py_in x xs = false ↔ x ∉ xs.
Proof.
  rewrite <- py_in_elem_of. destruct (Str.py_in x xs); split; congruence.
Qed.

Lemma guard_protected (fw : Framework) (path : string) :
  guard fw path = true ↔ protected fw path.
Proof.
  unfold guard, protected.
  rewrite andb_true_iff, negb_true_iff, py_in_elem_of, py_in_not_elem_of.
  reflexivity.
Qed.

Lemma client_page_routes_mounted (fw : Framework) (path : string) :
  path ∈ client_page_routes fw -> Str.startswith path MOUNT_PATH = true.
Proof.
  unfold client_page_routes. intros Hin.
  apply list_elem_of_fmap in Hin as (x & -> & _).
  reflexivity.
Qed.

Lemma filter_authorization_bearer (token : pyval) (headers : list (string * string)) :
  List.filter is_authorization (bearer_headers token headers)
  = [("authorization", "Bearer " +:+ py_str token)].
Proof.
  unfold bearer_headers. rewrite List.filter_app.
  assert (List.filter is_authorization
            (List.filter (fun e => negb (is_authorization e)) headers) = []) as ->.
  { induction headers as [|h hs IH]; [reflexivity|].
    cbn. destruct (is_authorization h) eqn:Hh; cbn; [exact IH|].
    rewrite Hh. exact IH. }
  reflexivity.
Qed.

(** ** The middleware, branch by branch *)

Section Middleware.

Variable svc : AuthService.
Variable fw : Framework.

Lemma forward_run (w : World) :
  forward w
  = (Ok CallNext,
     mkWorld (storage_user w) (bearer_headers (session_token w) (scope_headers w))
             (ui_events w) (auth_calls w)).
Proof. reflexivity. Qed.

Lemma AuthMiddleware_unfold (request : Request) (w : World) :
  AuthMiddleware svc fw request w
  = match user_check_token svc (session_token w) with
    | Raise e => (Raise e, checked w)
    | Ok valid =>
        if negb valid && guard fw (url_path request)
        then (Ok (Return (RedirectResponse (url_for fw request "login_page"))),
              redirected request w)
        else (Ok CallNext, forwarded w)
    end.
Proof.
  unfold AuthMiddleware, bind, storage_get, await_user_check_token, await.
  cbn -[forward guard Str.py_in]. fold (session_token w).
  destruct (user_check_token svc (session_token w)) as [[]|e];
    cbn -[forward guard Str.py_in]; try reflexivity.
  unfold guard. destruct (_ && _); reflexivity.
Qed.

Lemma AuthMiddleware_run (request : Request) (w : World) :
  mw_run svc fw request w
    (fst (AuthMiddleware svc fw request w))
    (snd (AuthMiddleware svc fw request w)).
Proof.
  rewrite AuthMiddleware_unfold.
  destruct (user_check_token svc (session_token w)) as [valid|e] eqn:Hcheck.
  - destruct (negb valid && guard fw (url_path request)) eqn:Hbranch; cbn.
    + apply andb_true_iff in Hbranch as [Hvalid Hguard].
      apply negb_true_iff in Hvalid. subst valid. by apply mw_redirect.
    + by eapply mw_forward.
  - cbn. by apply mw_raise.
Qed.

Lemma AuthMiddleware_redirect (request : Request) (w : World) :
  user_check_token svc (session_token w) = Ok false ->
  guard fw (url_path request) = true ->
  AuthMiddleware svc fw request w
  = (Ok (Return (RedirectResponse (url_for fw request "login_page"))),
     redirected request w).
Proof.
  intros Hcheck Hguard. rewrite AuthMiddleware_unfold, Hcheck, Hguard.
  reflexivity.
Qed.

Lemma AuthMiddleware_forward (request : Request) (w : World) (valid : bool) :
  user_check_token svc (session_token w) = Ok valid ->
  negb valid && guard fw (url_path request) = false ->
  AuthMiddleware svc fw request w = (Ok CallNext, forwarded w).
Proof.
  intros Hcheck Hbranch. rewrite AuthMiddleware_unfold, Hcheck, Hbranch.
  reflexivity.
Qed.

Lemma AuthMiddleware_raise (request : Request) (w : World) (e : exn) :
  user_check_token svc (session_token w) = Raise e ->
  AuthMiddleware svc fw request w = (Raise e, checked w).
Proof.
  intros Hcheck. rewrite AuthMiddleware_unfold, Hcheck. reflexivity.
Qed.

(** When the middleware answers by itself, the rest of the stack is not run. *)
Lemma handle_return (call_next : Request -> M Response) (request : Request)
    (w w' : World) (r : Response) :
  AuthMiddleware svc fw request w = (Ok (Return r), w') ->
  handle svc fw call_next request w = (Ok r, w').
Proof. intros Hrun. unfold handle, bind. rewrite Hrun. reflexivity. Qed.

Lemma handle_call_next (call_next : Request -> M Response) (request : Request)
    (w w' : World) :
  AuthMiddleware svc fw request w = (Ok CallNext, w') ->
  handle svc fw call_next request w = call_next request w'.
Proof. intros Hrun. unfold handle, bind. rewrite Hrun. reflexivity. Qed.

End Middleware.

(** ** The session guard *)

(** C1.  A request whose path is in the protected set (a registered page
    path that is not [/gui/login] or [/gui/register]), made with a session
    whose token the check rejects (an absent token reaches the check as
    [None]), is answered by the middleware with a redirect to the login
    page; the rest of the stack is not run, whatever it is; and
    [referrer_path] then holds the requested path with [root_path]
    removed from its front. *)
Theorem protected_request_is_redirected_to_login
    (svc : AuthService) (fw : Framework) (request : Request) (w : World)
    (call_next : Request -> M Response) :
  user_check_token svc (session_token w) = Ok false ->
  protected fw (url_path request) ->
  let login := RedirectResponse (url_for fw request "login_page") in
  let w' := snd (AuthMiddleware svc fw request w) in
  AuthMiddleware svc fw request w = (Ok (Return login), w')
  ∧ handle svc fw call_next request w = (Ok login, w')
  ∧ storage_user w' !! "referrer_path"
    = Some (PyStr (Str.removeprefix (url_path request) (scope_root_path request))).
Proof.
  intros Hcheck Hprot login w'. subst login w'.
  apply guard_protected in Hprot.
  pose proof (AuthMiddleware_redirect svc fw request w Hcheck Hprot) as Hrun.
  rewrite Hrun. cbn [snd]. split; [reflexivity|]. split.
  - by apply handle_return.
  - unfold redirected. cbn [storage_user]. apply lookup_insert_eq.
Qed.

Lemma protected_request_is_redirected_to_login_witness :
  let w := Example.world Example.stale_session Example.client_headers in
  let request := Example.request "/gui/" in
  let call_next := fun _ : Request => ret (RedirectResponse "/elsewhere") in
  user_check_token Example.service (session_token w) = Ok false
  ∧ protected gui_framework (url_path request)
  ∧ AuthMiddleware Example.service gui_framework request w
    = (Ok (Return (RedirectResponse "/gui/login")),
       snd (AuthMiddleware Example.service gui_framework request w))
  ∧ handle Example.service gui_framework call_next request w
    = (Ok (RedirectResponse "/gui/login"),
       snd (AuthMiddleware Example.service gui_framework request w))
  ∧ storage_user (snd (AuthMiddleware Example.service gui_framework request w))
      !! "referrer_path" = Some (PyStr "/").
Proof.
  intros w request call_next.
  assert (user_check_token Example.service (session_token w) = Ok false) as Hcheck
    by reflexivity.
  assert (protected gui_framework (url_path request)) as Hprot
    by (apply guard_protected; reflexivity).
  split; [exact Hcheck|]. split; [exact Hprot|].
  exact (protected_request_is_redirected_to_login
           Example.service gui_framework request w call_next Hcheck Hprot).
Defined.

(** C3.  When the middleware passes the request on, the header list it
    leaves has exactly one entry named [authorization], however many the
    client sent, and its value is [Bearer <token>] for the session's
    token, [Bearer None] when the session has none. *)
Theorem forwarded_request_has_one_authorization
    (svc : AuthService) (fw : Framework) (request : Request) (w w' : World) :
  AuthMiddleware svc fw request w = (Ok CallNext, w') ->
  List.filter is_authorization (scope_headers w')
  = [("authorization",
      match storage_user w !! "auth_token" with
      | Some (PyStr token) => "Bearer " +:+ token
      | Some PyNone | None => "Bearer None"
      end)]
  ∧ length (List.filter is_authorization (scope_headers w')) = 1.
Proof.
  intros Hrun.
  pose proof (AuthMiddleware_run svc fw request w) as Hspec.
  rewrite Hrun in Hspec. cbn [fst snd] in Hspec.
  inversion Hspec as [ | | valid Hcheck Hbranch Hr Hw ].
  unfold forwarded. cbn [scope_headers].
  rewrite filter_authorization_bearer. split; [|reflexivity].
  unfold session_token.
  destruct (storage_user w !! "auth_token") as [[|token]|]; reflexivity.
Qed.

Lemma forwarded_request_has_one_authorization_witness :
  let w := Example.world Example.alice_session Example.client_headers in
  let run := AuthMiddleware Example.service gui_framework (Example.request "/gui/") w in
  run = (Ok CallNext, snd run)
  ∧ List.filter is_authorization (scope_headers (snd run))
    = [("authorization", "Bearer tok-alice")]
  ∧ length (List.filter is_authorization (scope_headers (snd run))) = 1.
Proof.
  intros w run.
  assert (run = (Ok CallNext, snd run)) as Hrun by reflexivity.
  split; [exact Hrun|].
  exact (forwarded_request_has_one_authorization
           Example.service gui_framework (Example.request "/gui/") w (snd run) Hrun).
Defined.

(** C10.  The middleware never writes [auth_token]; the only key of the
    session it can change is [referrer_path], and only when it redirects
    an unauthenticated request for a protected path; when it passes the
    request on, and when the token check raises, the session is left as
    it was. *)
Theorem middleware_writes_only_referrer_path
    (svc : AuthService) (fw : Framework) (request : Request) (w : World) :
  let r := fst (AuthMiddleware svc fw request w) in
  let w' := snd (AuthMiddleware svc fw request w) in
  storage_user w' !! "auth_token" = storage_user w !! "auth_token"
  ∧ delete "referrer_path" (storage_user w') = delete "referrer_path" (storage_user w)
  ∧ ((r = Ok CallNext ∧ storage_user w' = storage_user w)
     ∨ (∃ e, r = Raise e ∧ storage_user w' = storage_user w)
     ∨ (r = Ok (Return (RedirectResponse (url_for fw request "login_page")))
        ∧ user_check_token svc (session_token w) = Ok false
        ∧ protected fw (url_path request)
        ∧ storage_user w'
          = <["referrer_path" :=
               PyStr (Str.removeprefix (url_path request) (scope_root_path request))]>
              (storage_user w))).
Proof.
  intros r w'. subst r w'.
  destruct (AuthMiddleware_run svc fw request w) as [e He | Hcheck Hguard | valid Hcheck Hbranch].
  - cbn [checked storage_user]. repeat split; eauto.
  - cbn [redirected storage_user].
    split; [by rewrite lookup_insert_ne|].
    split; [by rewrite delete_insert_eq|].
    right; right. apply guard_protected in Hguard. done.
  - cbn [forwarded storage_user]. repeat split; eauto.
Qed.

(** C2, as the code has it.  A request for [/gui/login] or [/gui/register]
    is never answered by the middleware with a redirect, whatever the
    session holds: it is passed on (or the token check's exception goes
    through).  The same is true of the bare path [/demo], which is not a
    page path under the mount. *)
Theorem public_paths_are_never_redirected
    (svc : AuthService) (fw : Framework) (request : Request) (w : World) :
  url_path request ∈ UNRESTRICTED_PAGE_ROUTES ∨ url_path request = "/demo" ->
  AuthMiddleware svc fw request w
  = match user_check_token svc (session_token w) with
    | Ok _ => (Ok CallNext, forwarded w)
    | Raise e => (Raise e, checked w)
    end
  ∧ ∀ r, fst (AuthMiddleware svc fw request w) ≠ Ok (Return r).
Proof.
  intros Hpublic.
  assert (guard fw (url_path request) = false) as Hguard.
  { destruct (guard fw (url_path request)) eqn:Hg; [|reflexivity].
    apply guard_protected in Hg as [Hpage Hrestricted].
    destruct Hpublic as [Hin | Heq]; [done|].
    apply client_page_routes_mounted in Hpage. rewrite Heq in Hpage.
    discriminate. }
  rewrite AuthMiddleware_unfold, Hguard.
  destruct (user_check_token svc (session_token w)) as [valid|e];
    [rewrite andb_false_r|]; split; cbn; congruence.
Qed.

Lemma public_paths_are_never_redirected_witness :
  let w := Example.world Example.stale_session Example.client_headers in
  let request := Example.request LOGIN_PATH in
  (url_path request ∈ UNRESTRICTED_PAGE_ROUTES ∨ url_path request = "/demo")
  ∧ AuthMiddleware Example.service gui_framework request w = (Ok CallNext, forwarded w)
  ∧ ∀ r, fst (AuthMiddleware Example.service gui_framework request w) ≠ Ok (Return r).
Proof.
  intros w request.
  assert (url_path request ∈ UNRESTRICTED_PAGE_ROUTES ∨ url_path request = "/demo")
    as Hpublic by (left; apply py_in_elem_of; reflexivity).
  split; [exact Hpublic|].
  exact (public_paths_are_never_redirected
           Example.service gui_framework request w Hpublic).
Defined.

(** C2 fails for the demo page: it is registered with [@ui.page("/demo")],
    so its path under the mount is [/gui/demo], which is a page path and
    not an unrestricted one.  A request for it from a fresh session is
    redirected to the login page. *)
Lemma demo_page_is_redirected :
  AuthMiddleware Example.service gui_framework (Example.request "/gui/demo")
    (Example.world Example.no_session [])
  = (Ok (Return (RedirectResponse "/gui/login")),
     mkWorld {[ "referrer_path" := PyStr "/demo" ]} [] []
             [Call_user_check_token PyNone]).
Proof. reflexivity. Qed.

(** C4, as the code has it.  The authorization header is replaced on every
    request the middleware passes on, whether the token is valid or not;
    a request it answers with a redirect keeps the headers it came with. *)
Theorem headers_rewritten_when_forwarded
    (svc : AuthService) (fw : Framework) (request : Request) (w : World)
    (valid : bool) :
  user_check_token svc (session_token w) = Ok valid ->
  let r := fst (AuthMiddleware svc fw request w) in
  let w' := snd (AuthMiddleware svc fw request w) in
  if negb valid && guard fw (url_path request)
  then r = Ok (Return (RedirectResponse (url_for fw request "login_page")))
       ∧ scope_headers w' = scope_headers w
  else r = Ok CallNext
       ∧ scope_headers w' = bearer_headers (session_token w) (scope_headers w).
Proof.
  intros Hcheck r w'. subst r w'.
  rewrite AuthMiddleware_unfold, Hcheck.
  destruct (negb valid && guard fw (url_path request)); split; reflexivity.
Qed.

Lemma headers_rewritten_when_forwarded_witness :
  let w := Example.world Example.stale_session Example.client_headers in
  let request := Example.request REGISTER_PATH in
  user_check_token Example.service (session_token w) = Ok false
  ∧ fst (AuthMiddleware Example.service gui_framework request w) = Ok CallNext
  ∧ scope_headers (snd (AuthMiddleware Example.service gui_framework request w))
    = [("host", "example.org"); ("accept", "text/html");
       ("authorization", "Bearer expired")].
Proof.
  intros w request.
  assert (user_check_token Example.service (session_token w) = Ok false) as Hcheck
    by reflexivity.
  split; [exact Hcheck|].
  exact (headers_rewritten_when_forwarded
           Example.service gui_framework request w false Hcheck).
Defined.

(** C4 fails on a redirected request: the two authorization entries the
    client sent are still there, and no bearer entry was added. *)
Lemma redirected_request_keeps_headers :
  let run := AuthMiddleware Example.service gui_framework (Example.request "/gui/")
               (Example.world Example.none_session Example.client_headers) in
  fst run = Ok (Return (RedirectResponse "/gui/login"))
  ∧ scope_headers (snd run)
    = [ ("host", "example.org"); ("authorization", "Basic Zm9vOmJhcg==");
        ("accept", "text/html"); ("authorization", "Bearer forged") ].
Proof. split; reflexivity. Qed.

Lemma drop_index_path_is_not_mount (n : nat) : Str.drop n "/gui/" ≠ "/gui".
Proof. do 6 (destruct n as [|n]; [discriminate|]). discriminate. Qed.

(** C5, as the code has it.  The middleware sits on the application
    mounted at [MOUNT_PATH], where the index page has the path [/gui/].
    With [auth_token = None] in the session, a request for it is
    redirected to [/gui/login], and [referrer_path] becomes that path
    without [root_path]: [/] under the mount's root path [/gui], and
    under no root path the value [/gui]. *)
Theorem index_request_without_token
    (svc : AuthService) (w : World) (root_path : string) :
  storage_user w !! "auth_token" = Some PyNone ->
  user_check_token svc PyNone = Ok false ->
  let at_index := AuthMiddleware svc gui_framework (mkRequest "/gui/" root_path) w in
  let mounted := AuthMiddleware svc gui_framework (mkRequest "/gui/" MOUNT_PATH) w in
  (fst at_index = Ok (Return (RedirectResponse "/gui/login"))
   ∧ storage_user (snd at_index) !! "referrer_path"
     = Some (PyStr (Str.removeprefix "/gui/" root_path))
   ∧ Str.removeprefix "/gui/" root_path ≠ "/gui")
  ∧ (fst mounted = Ok (Return (RedirectResponse "/gui/login"))
     ∧ storage_user (snd mounted) !! "referrer_path" = Some (PyStr "/")).
Proof.
  intros Htoken Hcheck at_index mounted. subst at_index mounted.
  assert (session_token w = PyNone) as Hnone
    by (unfold session_token; by rewrite Htoken).
  rewrite !AuthMiddleware_unfold, Hnone, Hcheck.
  split; [|split; cbn; [reflexivity | apply lookup_insert_eq]].
  split; [reflexivity|]. split; [cbn; apply lookup_insert_eq|].
  unfold Str.removeprefix.
  destruct (Str.startswith "/gui/" root_path);
    [apply drop_index_path_is_not_mount | discriminate].
Qed.

Lemma index_request_without_token_witness :
  let w := Example.world Example.none_session [] in
  storage_user w !! "auth_token" = Some PyNone
  ∧ user_check_token Example.service PyNone = Ok false
  ∧ fst (AuthMiddleware Example.service gui_framework (mkRequest "/gui/" MOUNT_PATH) w)
    = Ok (Return (RedirectResponse "/gui/login"))
  ∧ storage_user
      (snd (AuthMiddleware Example.service gui_framework (mkRequest "/gui/" MOUNT_PATH) w))
      !! "referrer_path" = Some (PyStr "/").
Proof.
  intros w.
  assert (storage_user w !! "auth_token" = Some PyNone) as Htoken by reflexivity.
  assert (user_check_token Example.service PyNone = Ok false) as Hcheck by reflexivity.
  split; [exact Htoken|]. split; [exact Hcheck|].
  exact (proj2 (index_request_without_token
                  Example.service w MOUNT_PATH Htoken Hcheck)).
Defined.

(** C5 fails as stated: the request for the index page reaches the
    middleware with the path [/gui/] and the root path [/gui]; it is
    redirected to the login page, and what is remembered as
    [referrer_path] is [/], not [/gui]. *)
Lemma index_redirect_remembers_slash :
  let run := AuthMiddleware Example.service gui_framework (mkRequest "/gui/" MOUNT_PATH)
               (Example.world Example.none_session []) in
  run = (Ok (Return (RedirectResponse "/gui/login")),
         mkWorld (<["referrer_path" := PyStr "/"]> Example.none_session) [] []
                 [Call_user_check_token PyNone])
  ∧ storage_user (snd run) !! "referrer_path" = Some (PyStr "/")
  ∧ storage_user (snd run) !! "referrer_path" ≠ Some (PyStr "/gui").
Proof. split; [reflexivity|]. split; [reflexivity | discriminate]. Qed.

(** C9.  With the token check of the Auth Service (never raising, and
    answering "not authenticated" for an absent token, an invalid one and
    an unreachable store alike), no run of the middleware ends in an
    exception; and a token that fails the check is handled as an absent
    one: the middleware ends the same way, leaves the same [referrer_path],
    and redirects a request for a protected path to the login page. *)
Theorem token_check_failure_fails_closed
    (store : TokenStore) (svc : AuthService) (fw : Framework)
    (request : Request) (w : World) :
  let guarded := AuthMiddleware (with_spec_check store svc) fw request in
  (∃ action, fst (guarded w) = Ok action)
  ∧ (spec_user_check_token store (session_token w) = Ok false ->
     fst (guarded w) = fst (guarded (without_token w))
     ∧ storage_user (snd (guarded w)) !! "referrer_path"
       = storage_user (snd (guarded (without_token w))) !! "referrer_path"
     ∧ (protected fw (url_path request) ->
        fst (guarded w)
        = Ok (Return (RedirectResponse (url_for fw request "login_page"))))).
Proof.
  intros guarded. subst guarded. split.
  - rewrite AuthMiddleware_unfold. cbn [with_spec_check user_check_token].
    destruct (session_token w) as [|t]; cbn [spec_user_check_token];
      destruct (negb _ && _); eauto.
  - intros Hfail.
    assert (session_token (without_token w) = PyNone) as Habsent.
    { unfold session_token, without_token. cbn [storage_user].
      by rewrite lookup_delete_eq. }
    rewrite !AuthMiddleware_unfold. cbn [with_spec_check user_check_token].
    rewrite Hfail, Habsent. cbn [spec_user_check_token negb andb].
    destruct (guard fw (url_path request)) eqn:Hguard.
    + cbn [fst snd redirected without_token storage_user].
      split; [reflexivity|]. split; [|reflexivity].
      by rewrite !lookup_insert_eq.
    + cbn [fst snd forwarded without_token storage_user].
      split; [reflexivity|]. split.
      * by rewrite lookup_delete_ne.
      * intros Hprot. apply guard_protected in Hprot. congruence.
Qed.

Lemma token_check_failure_fails_closed_witness :
  let store := mkTokenStore false ["tok-alice"] in
  let w := Example.world Example.alice_session Example.client_headers in
  let request := Example.request "/gui/" in
  spec_user_check_token store (session_token w) = Ok false
  ∧ protected gui_framework (url_path request)
  ∧ fst (AuthMiddleware (with_spec_check store Example.service) gui_framework request w)
    = Ok (Return (RedirectResponse "/gui/login")).
Proof.
  intros store w request.
  assert (spec_user_check_token store (session_token w) = Ok false) as Hfail
    by reflexivity.
  assert (protected gui_framework (url_path request)) as Hprot
    by (apply guard_protected; reflexivity).
  split; [exact Hfail|]. split; [exact Hprot|].
  exact (proj2 (proj2 (proj2 (token_check_failure_fails_closed
                                store Example.service gui_framework request w)
                             Hfail))
               Hprot).
Defined.

(** ** The login and registration handlers *)

(** C6.  When the token in the session passes the check, [login_page]
    returns a redirect to the index page at once: the form is not
    rendered and the session is not touched. *)
Theorem login_page_redirects_valid_session (svc : AuthService) (w : World) :
  user_check_token svc (session_token w) = Ok true ->
  login_page svc w = (Ok (Some (RedirectResponse INDEX_PATH)), checked w)
  ∧ ui_events (snd (login_page svc w)) = ui_events w
  ∧ storage_user (snd (login_page svc w)) = storage_user w.
Proof.
  intros Hcheck.
  assert (login_page svc w = (Ok (Some (RedirectResponse INDEX_PATH)), checked w))
    as Hrun.
  { unfold login_page, bind, storage_get, await_user_check_token, await.
    cbn. fold (session_token w). rewrite Hcheck. reflexivity. }
  rewrite Hrun. repeat split.
Qed.

Lemma login_page_redirects_valid_session_witness :
  let w := Example.world Example.alice_session [] in
  user_check_token Example.service (session_token w) = Ok true
  ∧ login_page Example.service w = (Ok (Some (RedirectResponse "/gui")), checked w)
  ∧ ui_events (snd (login_page Example.service w)) = []
  ∧ storage_user (snd (login_page Example.service w)) = Example.alice_session.
Proof.
  intros w.
  assert (user_check_token Example.service (session_token w) = Ok true) as Hcheck
    by reflexivity.
  split; [exact Hcheck|].
  exact (login_page_redirects_valid_session Example.service w Hcheck).
Defined.

(** C7.  When [user_authenticate] returns no user, or [user_create_token]
    returns no token for the user, [try_login] ends normally, shows the
    notice "email or password wrong!", and leaves the session exactly as
    it was. *)
Theorem failed_login_leaves_session
    (svc : AuthService) (email password : string) (w : World) :
  user_authenticate svc email password = Ok None
  ∨ (∃ user, user_authenticate svc email password = Ok (Some user)
             ∧ user_create_token svc user = Ok None) ->
  let run := try_login svc email password w in
  fst run = Ok tt
  ∧ storage_user (snd run) = storage_user w
  ∧ ui_events (snd run)
    = (ui_events w ++ [Notify "email or password wrong!" (Some "negative")])%list.
Proof.
  intros Hfail run. subst run.
  unfold try_login, bind, await_user_authenticate, token_for,
    await_user_create_token, await.
  destruct Hfail as [Hnone | (user & Hsome & Htoken)].
  - rewrite Hnone. cbn. done.
  - rewrite Hsome. cbn. rewrite Htoken. cbn. done.
Qed.

Lemma failed_login_leaves_session_witness :
  let w := Example.world Example.stale_session [] in
  let run := try_login Example.service "alice@example.org" "guess" w in
  (user_authenticate Example.service "alice@example.org" "guess" = Ok None
   ∨ (∃ user, user_authenticate Example.service "alice@example.org" "guess"
              = Ok (Some user)
              ∧ user_create_token Example.service user = Ok None))
  ∧ fst run = Ok tt
  ∧ storage_user (snd run) = Example.stale_session
  ∧ ui_events (snd run) = [Notify "email or password wrong!" (Some "negative")].
Proof.
  intros w run.
  assert (user_authenticate Example.service "alice@example.org" "guess" = Ok None
          ∨ (∃ user, user_authenticate Example.service "alice@example.org" "guess"
                     = Ok (Some user)
                     ∧ user_create_token Example.service user = Ok None))
    as Hfail by (left; reflexivity).
  split; [exact Hfail|].
  exact (failed_login_leaves_session
           Example.service "alice@example.org" "guess" w Hfail).
Defined.

(** C8.  When [user_create] raises, [try_register] ends normally: it shows
    the message of the exception and does nothing else; the session is
    left as it was, and [user_create_token] is not called, so no token is
    created or stored. *)
Theorem failed_registration_leaves_session
    (svc : AuthService) (email password : string) (w : World) (e : exn) :
  user_create svc email password = Raise e ->
  let run := try_register svc email password w in
  fst run = Ok tt
  ∧ ui_events (snd run) = (ui_events w ++ [Notify (exn_message e) None])%list
  ∧ storage_user (snd run) = storage_user w
  ∧ auth_calls (snd run) = (auth_calls w ++ [Call_user_create email password])%list.
Proof.
  intros Hraise run. subst run.
  unfold try_register, try_except_else, await_user_create, await.
  rewrite Hraise. cbn. done.
Qed.

Lemma failed_registration_leaves_session_witness :
  let w := Example.world Example.no_session [] in
  let run := try_register Example.service "alice@example.org" "secret" w in
  user_create Example.service "alice@example.org" "secret"
  = Raise (Exception "REGISTER_USER_ALREADY_EXISTS")
  ∧ fst run = Ok tt
  ∧ ui_events (snd run) = [Notify "REGISTER_USER_ALREADY_EXISTS" None]
  ∧ storage_user (snd run) = ∅
  ∧ auth_calls (snd run) = [Call_user_create "alice@example.org" "secret"].
Proof.
  intros w run.
  assert (user_create Example.service "alice@example.org" "secret"
          = Raise (Exception "REGISTER_USER_ALREADY_EXISTS")) as Hraise
    by reflexivity.
  split; [exact Hraise|].
  exact (failed_registration_leaves_session
           Example.service "alice@example.org" "secret" w
           (Exception "REGISTER_USER_ALREADY_EXISTS") Hraise).
Defined.


(** ** Further properties of the handlers *)

(** *** Logging in and signing up *)

Lemma try_login_success
    (svc : AuthService) (email password : string) (w : World)
    (user : User) (token : string) :
  user_authenticate svc email password = Ok (Some user) ->
  user_create_token svc user = Ok (Some token) ->
  try_login svc email password w
  = (Ok tt,
     mkWorld (<["auth_token" := PyStr token]> (storage_user w))
             (scope_headers w)
             (ui_events w
              ++ [NavigateTo (default (PyStr "/") (storage_user w !! "referrer_path"))])
             (auth_calls w ++ [Call_user_authenticate email password;
                               Call_user_create_token user])).
Proof.
  intros Huser Htoken.
  unfold try_login, bind, await_user_authenticate, token_for,
    await_user_create_token, await, storage_set, storage_get, ui.
  rewrite Huser. cbn. rewrite Htoken. cbn.
  rewrite lookup_insert_ne by done. by rewrite <- app_assoc.
Qed.

(** X1.  A login that yields a token stores it under [auth_token],
    changes no other key of the session ([referrer_path] is kept), shows
    no notice, and navigates to [referrer_path], or to [/] when the
    session has none. *)
Theorem successful_login_stores_token_and_navigates
    (svc : AuthService) (email password : string) (w : World)
    (user : User) (token : string) :
  user_authenticate svc email password = Ok (Some user) ->
  user_create_token svc user = Ok (Some token) ->
  let run := try_login svc email password w in
  fst run = Ok tt
  ∧ storage_user (snd run) = <["auth_token" := PyStr token]> (storage_user w)
  ∧ ui_events (snd run)
    = (ui_events w
       ++ [NavigateTo (default (PyStr "/") (storage_user w !! "referrer_path"))])%list.
Proof.
  intros Huser Htoken run. subst run.
  rewrite (try_login_success svc email password w user token Huser Htoken).
  done.
Qed.

Lemma successful_login_stores_token_and_navigates_witness :
  let w := Example.world Example.referred_session [] in
  let run := try_login Example.service "alice@example.org" "secret" w in
  user_authenticate Example.service "alice@example.org" "secret"
  = Ok (Some Example.alice)
  ∧ user_create_token Example.service Example.alice = Ok (Some "tok-alice")
  ∧ fst run = Ok tt
  ∧ storage_user (snd run)
    = <["auth_token" := PyStr "tok-alice"]> Example.referred_session
  ∧ ui_events (snd run) = [NavigateTo (PyStr "/demo")].
Proof.
  intros w run.
  assert (user_authenticate Example.service "alice@example.org" "secret"
          = Ok (Some Example.alice)) as Huser by reflexivity.
  assert (user_create_token Example.service Example.alice = Ok (Some "tok-alice"))
    as Htoken by reflexivity.
  split; [exact Huser|]. split; [exact Htoken|].
  exact (successful_login_stores_token_and_navigates
           Example.service "alice@example.org" "secret" w
           Example.alice "tok-alice" Huser Htoken).
Defined.

(** X2.  When authentication finds no user, [user_create_token] is not
    called at all: the only call made to the Auth Service is the
    authentication itself. *)
Theorem failed_authentication_issues_no_token
    (svc : AuthService) (email password : string) (w : World) :
  user_authenticate svc email password = Ok None ->
  auth_calls (snd (try_login svc email password w))
  = (auth_calls w ++ [Call_user_authenticate email password])%list.
Proof.
  intros Hnone.
  unfold try_login, bind, await_user_authenticate, token_for, await, ret, ui.
  rewrite Hnone. reflexivity.
Qed.

Lemma failed_authentication_issues_no_token_witness :
  let w := Example.world Example.no_session [] in
  user_authenticate Example.service "alice@example.org" "guess" = Ok None
  ∧ auth_calls (snd (try_login Example.service "alice@example.org" "guess" w))
    = [Call_user_authenticate "alice@example.org" "guess"].
Proof.
  intros w.
  assert (user_authenticate Example.service "alice@example.org" "guess" = Ok None)
    as Hnone by reflexivity.
  split; [exact Hnone|].
  exact (failed_authentication_issues_no_token
           Example.service "alice@example.org" "guess" w Hnone).
Defined.

(** X3.  An exception raised by [user_authenticate], or by
    [user_create_token] for the authenticated user, leaves [try_login]
    as it is: the handler has no [try], so it ends with that exception,
    shows no notice and leaves the session as it was. *)
Theorem login_exception_escapes
    (svc : AuthService) (email password : string) (w : World) (e : exn) :
  user_authenticate svc email password = Raise e
  ∨ (∃ user, user_authenticate svc email password = Ok (Some user)
             ∧ user_create_token svc user = Raise e) ->
  let run := try_login svc email password w in
  fst run = Raise e
  ∧ storage_user (snd run) = storage_user w
  ∧ ui_events (snd run) = ui_events w.
Proof.
  intros Hraise run. subst run.
  unfold try_login, bind, await_user_authenticate, token_for,
    await_user_create_token, await.
  destruct Hraise as [Hauth | (user & Hauth & Htoken)].
  - rewrite Hauth. done.
  - rewrite Hauth. cbn. rewrite Htoken. done.
Qed.

Lemma login_exception_escapes_witness :
  let w := Example.world Example.stale_session [] in
  let run := try_login Example.broken_service "alice@example.org" "secret" w in
  (user_authenticate Example.broken_service "alice@example.org" "secret"
   = Raise (Exception "database is locked")
   ∨ (∃ user, user_authenticate Example.broken_service "alice@example.org" "secret"
              = Ok (Some user)
              ∧ user_create_token Example.broken_service user
                = Raise (Exception "database is locked")))
  ∧ fst run = Raise (Exception "database is locked")
  ∧ storage_user (snd run) = Example.stale_session
  ∧ ui_events (snd run) = [].
Proof.
  intros w run.
  assert (user_authenticate Example.broken_service "alice@example.org" "secret"
          = Raise (Exception "database is locked")
          ∨ (∃ user, user_authenticate Example.broken_service "alice@example.org" "secret"
                     = Ok (Some user)
                     ∧ user_create_token Example.broken_service user
                       = Raise (Exception "database is locked")))
    as Hraise by (left; reflexivity).
  split; [exact Hraise|].
  exact (login_exception_escapes Example.broken_service "alice@example.org" "secret"
           w (Exception "database is locked") Hraise).
Defined.

(** X4.  When the login page is opened with a token the check rejects
    (or with none), it renders the login form (two inputs, the button,
    the link to the registration page) and returns no response, so the
    page is served; the session is not touched. *)
Theorem login_page_renders_form_without_valid_token
    (svc : AuthService) (w : World) :
  user_check_token svc (session_token w) = Ok false ->
  let run := login_page svc w in
  fst run = Ok None
  ∧ ui_events (snd run)
    = (ui_events w
       ++ [Render (Card [ Input "email" false; Input "password" true;
                          Button "Continue"; Separator;
                          Row [ Label "New around here?";
                                Link "Create account" "/register" ] ])])%list
  ∧ storage_user (snd run) = storage_user w.
Proof.
  intros Hcheck run. subst run.
  unfold login_page, bind, storage_get, await_user_check_token, await.
  cbn. fold (session_token w). rewrite Hcheck. done.
Qed.

Lemma login_page_renders_form_without_valid_token_witness :
  let w := Example.world Example.no_session [] in
  user_check_token Example.service (session_token w) = Ok false
  ∧ fst (login_page Example.service w) = Ok None
  ∧ ui_events (snd (login_page Example.service w)) = [Render login_form]
  ∧ storage_user (snd (login_page Example.service w)) = ∅.
Proof.
  intros w.
  assert (user_check_token Example.service (session_token w) = Ok false) as Hcheck
    by reflexivity.
  split; [exact Hcheck|].
  exact (login_page_renders_form_without_valid_token Example.service w Hcheck).
Defined.

(** X5.  A sign-up that yields a user and a token stores the token under
    [auth_token], changes no other key, shows no notice, and navigates to
    [referrer_path], or to [/] when the session has none, exactly as a
    successful login does. *)
Theorem successful_registration_stores_token_and_navigates
    (svc : AuthService) (email password : string) (w : World)
    (user : User) (token : string) :
  user_create svc email password = Ok (Some user) ->
  user_create_token svc user = Ok (Some token) ->
  let run := try_register svc email password w in
  fst run = Ok tt
  ∧ storage_user (snd run) = <["auth_token" := PyStr token]> (storage_user w)
  ∧ ui_events (snd run)
    = (ui_events w
       ++ [NavigateTo (default (PyStr "/") (storage_user w !! "referrer_path"))])%list.
Proof.
  intros Huser Htoken run. subst run.
  unfold try_register, try_except_else, bind, await_user_create, token_for,
    await_user_create_token, await, storage_set, storage_get, ui.
  rewrite Huser. cbn. rewrite Htoken. cbn.
  rewrite lookup_insert_ne by done. done.
Qed.

Lemma successful_registration_stores_token_and_navigates_witness :
  let w := Example.world Example.no_session [] in
  let run := try_register Example.signup_service "bob@example.org" "hunter2" w in
  user_create Example.signup_service "bob@example.org" "hunter2"
  = Ok (Some (mkUser "bob@example.org"))
  ∧ user_create_token Example.signup_service (mkUser "bob@example.org")
    = Ok (Some "tok-bob@example.org")
  ∧ fst run = Ok tt
  ∧ storage_user (snd run) = {[ "auth_token" := PyStr "tok-bob@example.org" ]}
  ∧ ui_events (snd run) = [NavigateTo (PyStr "/")].
Proof.
  intros w run.
  assert (user_create Example.signup_service "bob@example.org" "hunter2"
          = Ok (Some (mkUser "bob@example.org"))) as Huser by reflexivity.
  assert (user_create_token Example.signup_service (mkUser "bob@example.org")
          = Ok (Some "tok-bob@example.org")) as Htoken by reflexivity.
  split; [exact Huser|]. split; [exact Htoken|].
  exact (successful_registration_stores_token_and_navigates
           Example.signup_service "bob@example.org" "hunter2" w
           (mkUser "bob@example.org") "tok-bob@example.org" Huser Htoken).
Defined.

(** X6.  When [user_create] returns without raising but yields no user, or
    the user gets no token, [try_register] does nothing the user can see:
    unlike [try_login] it has no [else] branch, so there is no notice and
    no navigation, and the session is left as it was. *)
Theorem registration_without_token_is_silent
    (svc : AuthService) (email password : string) (w : World) :
  user_create svc email password = Ok None
  ∨ (∃ user, user_create svc email password = Ok (Some user)
             ∧ user_create_token svc user = Ok None) ->
  let run := try_register svc email password w in
  fst run = Ok tt
  ∧ ui_events (snd run) = ui_events w
  ∧ storage_user (snd run) = storage_user w.
Proof.
  intros Hnone run. subst run.
  unfold try_register, try_except_else, bind, await_user_create, token_for,
    await_user_create_token, await.
  destruct Hnone as [Hcreate | (user & Hcreate & Htoken)].
  - rewrite Hcreate. done.
  - rewrite Hcreate. cbn. rewrite Htoken. done.
Qed.

Lemma registration_without_token_is_silent_witness :
  let w := Example.world Example.no_session [] in
  let run := try_register Example.service "bob@example.org" "hunter2" w in
  (user_create Example.service "bob@example.org" "hunter2" = Ok None
   ∨ (∃ user, user_create Example.service "bob@example.org" "hunter2"
              = Ok (Some user)
              ∧ user_create_token Example.service user = Ok None))
  ∧ fst run = Ok tt
  ∧ ui_events (snd run) = []
  ∧ storage_user (snd run) = ∅.
Proof.
  intros w run.
  assert (user_create Example.service "bob@example.org" "hunter2" = Ok None
          ∨ (∃ user, user_create Example.service "bob@example.org" "hunter2"
                     = Ok (Some user)
                     ∧ user_create_token Example.service user = Ok None))
    as Hnone by (right; exists (mkUser "bob@example.org"); split; reflexivity).
  split; [exact Hnone|].
  exact (registration_without_token_is_silent
           Example.service "bob@example.org" "hunter2" w Hnone).
Defined.

(** X7.  The [except] of [try_register] guards [user_create] only: an
    exception raised by [user_create_token], which runs in the [else]
    part, is not caught.  The handler ends with it, no message is shown,
    and the session is left as it was. *)
Theorem registration_token_exception_escapes
    (svc : AuthService) (email password : string) (w : World)
    (user : User) (e : exn) :
  user_create svc email password = Ok (Some user) ->
  user_create_token svc user = Raise e ->
  let run := try_register svc email password w in
  fst run = Raise e
  ∧ ui_events (snd run) = ui_events w
  ∧ storage_user (snd run) = storage_user w.
Proof.
  intros Hcreate Htoken run. subst run.
  unfold try_register, try_except_else, bind, await_user_create, token_for,
    await_user_create_token, await.
  rewrite Hcreate. cbn. rewrite Htoken. done.
Qed.

Lemma registration_token_exception_escapes_witness :
  let w := Example.world Example.no_session [] in
  let run := try_register Example.broken_service "bob@example.org" "hunter2" w in
  user_create Example.broken_service "bob@example.org" "hunter2"
  = Ok (Some (mkUser "bob@example.org"))
  ∧ user_create_token Example.broken_service (mkUser "bob@example.org")
    = Raise (Exception "database is locked")
  ∧ fst run = Raise (Exception "database is locked")
  ∧ ui_events (snd run) = []
  ∧ storage_user (snd run) = ∅.
Proof.
  intros w run.
  assert (user_create Example.broken_service "bob@example.org" "hunter2"
          = Ok (Some (mkUser "bob@example.org"))) as Hcreate by reflexivity.
  assert (user_create_token Example.broken_service (mkUser "bob@example.org")
          = Raise (Exception "database is locked")) as Htoken by reflexivity.
  split; [exact Hcreate|]. split; [exact Htoken|].
  exact (registration_token_exception_escapes
           Example.broken_service "bob@example.org" "hunter2" w
           (mkUser "bob@example.org") (Exception "database is locked")
           Hcreate Htoken).
Defined.

(** *** More on the session guard *)

Lemma filter_other_headers_bearer (token : pyval) (headers : list (string * string)) :
  List.filter (fun e => negb (is_authorization e)) (bearer_headers token headers)
  = List.filter (fun e => negb (is_authorization e)) headers.
Proof.
  unfold bearer_headers. rewrite List.filter_app. cbn.
  rewrite app_nil_r.
  induction headers as [|h hs IH]; [reflexivity|].
  cbn. destruct (is_authorization h) eqn:Hh; cbn; [exact IH|].
  rewrite Hh. cbn. by rewrite IH.
Qed.

Lemma bearer_headers_twice (token : pyval) (headers : list (string * string)) :
  bearer_headers token (bearer_headers token headers) = bearer_headers token headers.
Proof.
  unfold bearer_headers at 1. rewrite filter_other_headers_bearer. reflexivity.
Qed.

Lemma removeprefix_mounted (route : string) :
  Str.removeprefix (MOUNT_PATH +:+ route) MOUNT_PATH = route.
Proof. reflexivity. Qed.

(** X8.  Only protected paths are ever redirected: a request for any other
    path (a page path declared unrestricted, or a path that is no page
    path at all) is passed on whatever the token check answers, and only
    an exception of the check itself can stop it. *)
Theorem unprotected_paths_are_forwarded
    (svc : AuthService) (fw : Framework) (request : Request) (w : World) :
  ¬ protected fw (url_path request) ->
  AuthMiddleware svc fw request w
  = match user_check_token svc (session_token w) with
    | Ok _ => (Ok CallNext, forwarded w)
    | Raise e => (Raise e, checked w)
    end.
Proof.
  intros Hfree.
  assert (guard fw (url_path request) = false) as Hguard.
  { destruct (guard fw (url_path request)) eqn:Hg; [|reflexivity].
    apply guard_protected in Hg. contradiction. }
  rewrite AuthMiddleware_unfold, Hguard.
  destruct (user_check_token svc (session_token w)) as [valid|e];
    [rewrite andb_false_r|]; reflexivity.
Qed.

Lemma unprotected_paths_are_forwarded_witness :
  let w := Example.world Example.no_session Example.client_headers in
  let request := Example.request "/gui/_nicegui/components.js" in
  ¬ protected gui_framework (url_path request)
  ∧ AuthMiddleware Example.service gui_framework request w
    = (Ok CallNext, forwarded w)
  ∧ scope_headers (forwarded w)
    = [("host", "example.org"); ("accept", "text/html");
       ("authorization", "Bearer None")].
Proof.
  intros w request.
  assert (¬ protected gui_framework (url_path request)) as Hfree.
  { intros Hprot. apply guard_protected in Hprot. discriminate Hprot. }
  split; [exact Hfree|]. split; [|reflexivity].
  exact (unprotected_paths_are_forwarded
           Example.service gui_framework request w Hfree).
Defined.

(** X9.  The middleware has no [try] around the token check: when the
    check raises, the request ends with that exception, the rest of the
    stack is not run, and neither the session nor the headers of the
    request have been changed. *)
Theorem token_check_exception_passes_through
    (svc : AuthService) (fw : Framework) (request : Request) (w : World)
    (call_next : Request -> M Response) (e : exn) :
  user_check_token svc (session_token w) = Raise e ->
  let run := handle svc fw call_next request w in
  fst run = Raise e
  ∧ fst (AuthMiddleware svc fw request w) = Raise e
  ∧ storage_user (snd run) = storage_user w
  ∧ scope_headers (snd run) = scope_headers w.
Proof.
  intros Hraise run. subst run.
  unfold handle, bind.
  rewrite (AuthMiddleware_raise svc fw request w e Hraise). done.
Qed.

Lemma token_check_exception_passes_through_witness :
  let w := Example.world Example.alice_session Example.client_headers in
  let request := Example.request "/gui/" in
  let call_next := fun _ : Request => ret (RedirectResponse "/elsewhere") in
  let run := handle Example.broken_service gui_framework call_next request w in
  user_check_token Example.broken_service (session_token w)
  = Raise (Exception "database is locked")
  ∧ fst run = Raise (Exception "database is locked")
  ∧ fst (AuthMiddleware Example.broken_service gui_framework request w)
    = Raise (Exception "database is locked")
  ∧ storage_user (snd run) = Example.alice_session
  ∧ scope_headers (snd run) = Example.client_headers.
Proof.
  intros w request call_next run.
  assert (user_check_token Example.broken_service (session_token w)
          = Raise (Exception "database is locked")) as Hraise by reflexivity.
  split; [exact Hraise|].
  exact (token_check_exception_passes_through
           Example.broken_service gui_framework request w call_next
           (Exception "database is locked") Hraise).
Defined.

(** X10.  Every run of the middleware asks the Auth Service exactly one
    thing: one token check, on the token the session holds; it creates no
    element, shows no notice and navigates nowhere. *)
Theorem middleware_checks_the_token_once
    (svc : AuthService) (fw : Framework) (request : Request) (w : World) :
  let w' := snd (AuthMiddleware svc fw request w) in
  auth_calls w'
  = (auth_calls w ++ [Call_user_check_token (session_token w)])%list
  ∧ ui_events w' = ui_events w.
Proof.
  intros w'. subst w'.
  destruct (AuthMiddleware_run svc fw request w); split; reflexivity.
Qed.

(** X11.  On a request that is passed on, the headers that are not named
    [authorization] are kept, in their order; the bearer entry comes
    last; and passing the request through the middleware once more, with
    the same session, leaves the header list as it is. *)
Theorem forwarding_keeps_the_other_headers
    (svc : AuthService) (fw : Framework) (request : Request) (w w' : World) :
  AuthMiddleware svc fw request w = (Ok CallNext, w') ->
  List.filter (fun e => negb (is_authorization e)) (scope_headers w')
  = List.filter (fun e => negb (is_authorization e)) (scope_headers w)
  ∧ last (scope_headers w')
    = Some ("authorization", "Bearer " +:+ py_str (session_token w))
  ∧ AuthMiddleware svc fw request w'
    = (Ok CallNext,
       mkWorld (storage_user w') (scope_headers w') (ui_events w')
               (auth_calls w' ++ [Call_user_check_token (session_token w)])).
Proof.
  intros Hrun.
  rewrite AuthMiddleware_unfold in Hrun.
  destruct (user_check_token svc (session_token w)) as [valid|e] eqn:Hcheck;
    [|discriminate].
  destruct (negb valid && guard fw (url_path request)) eqn:Hbranch;
    [discriminate|].
  injection Hrun as <-.
  assert (session_token (forwarded w) = session_token w) as Htoken by reflexivity.
  split; [apply filter_other_headers_bearer|].
  split; [apply last_snoc|].
  rewrite (AuthMiddleware_forward svc fw request (forwarded w) valid);
    [| by rewrite Htoken | exact Hbranch].
  unfold forwarded at 1. rewrite Htoken.
  cbn [storage_user scope_headers ui_events auth_calls forwarded].
  by rewrite bearer_headers_twice.
Qed.

Lemma forwarding_keeps_the_other_headers_witness :
  let w := Example.world Example.alice_session Example.client_headers in
  let request := Example.request "/gui/demo" in
  let w' := snd (AuthMiddleware Example.service gui_framework request w) in
  AuthMiddleware Example.service gui_framework request w = (Ok CallNext, w')
  ∧ List.filter (fun e => negb (is_authorization e)) (scope_headers w')
    = [("host", "example.org"); ("accept", "text/html")]
  ∧ last (scope_headers w') = Some ("authorization", "Bearer tok-alice")
  ∧ scope_headers (snd (AuthMiddleware Example.service gui_framework request w'))
    = scope_headers w'.
Proof.
  intros w request w'.
  assert (AuthMiddleware Example.service gui_framework request w = (Ok CallNext, w'))
    as Hrun by reflexivity.
  split; [exact Hrun|].
  pose proof (forwarding_keeps_the_other_headers
                Example.service gui_framework request w w' Hrun)
    as (Hkeep & Hlast & Hagain).
  split; [exact Hkeep|]. split; [exact Hlast|].
  rewrite Hagain. reflexivity.
Defined.

(** *** From the redirect to the page and back *)

(** X12.  Prefixing and stripping cancel: when a page registered at
    [route] is requested under the mount ([MOUNT_PATH + route], with the
    mount's root path) by a session the check rejects, the middleware
    redirects and remembers [route] itself as [referrer_path]. *)
Theorem referrer_path_is_the_page_route
    (svc : AuthService) (fw : Framework) (route : string) (w : World) :
  route ∈ page_routes fw ->
  (MOUNT_PATH +:+ route) ∉ UNRESTRICTED_PAGE_ROUTES ->
  user_check_token svc (session_token w) = Ok false ->
  let request := mkRequest (MOUNT_PATH +:+ route) MOUNT_PATH in
  let run := AuthMiddleware svc fw request w in
  fst run = Ok (Return (RedirectResponse (url_for fw request "login_page")))
  ∧ storage_user (snd run) !! "referrer_path" = Some (PyStr route).
Proof.
  intros Hroute Hrestricted Hcheck request run. subst request run.
  assert (guard fw (MOUNT_PATH +:+ route) = true) as Hguard.
  { apply guard_protected. split; [|exact Hrestricted].
    unfold client_page_routes. apply list_elem_of_fmap.
    exists route. split; [reflexivity | exact Hroute]. }
  rewrite (AuthMiddleware_redirect svc fw
             (mkRequest (MOUNT_PATH +:+ route) MOUNT_PATH) w Hcheck Hguard).
  split; [reflexivity|].
  cbn [snd redirected storage_user url_path scope_root_path].
  rewrite removeprefix_mounted. apply lookup_insert_eq.
Qed.

Lemma referrer_path_is_the_page_route_witness :
  let w := Example.world Example.no_session [] in
  let run := AuthMiddleware Example.service gui_framework
               (mkRequest "/gui/demo" "/gui") w in
  "/demo" ∈ page_routes gui_framework
  ∧ ((MOUNT_PATH +:+ "/demo") ∉ UNRESTRICTED_PAGE_ROUTES)
  ∧ user_check_token Example.service (session_token w) = Ok false
  ∧ fst run = Ok (Return (RedirectResponse "/gui/login"))
  ∧ storage_user (snd run) !! "referrer_path" = Some (PyStr "/demo").
Proof.
  intros w run.
  assert ("/demo" ∈ page_routes gui_framework) as Hroute
    by (apply py_in_elem_of; reflexivity).
  assert ((MOUNT_PATH +:+ "/demo") ∉ UNRESTRICTED_PAGE_ROUTES) as Hrestricted
    by (apply py_in_not_elem_of; reflexivity).
  assert (user_check_token Example.service (session_token w) = Ok false) as Hcheck
    by reflexivity.
  split; [exact Hroute|]. split; [exact Hrestricted|]. split; [exact Hcheck|].
  exact (referrer_path_is_the_page_route
           Example.service gui_framework "/demo" w Hroute Hrestricted Hcheck).
Defined.

(** X13.  The path a redirect remembered is where a later login goes:
    after the middleware has redirected a request for a protected path, a
    successful [try_login] on the same session navigates to that path
    with [root_path] removed, and the session then holds the token. *)
Theorem login_returns_to_the_blocked_page
    (svc : AuthService) (fw : Framework) (request : Request) (w w2 : World)
    (email password : string) (user : User) (token : string) :
  user_check_token svc (session_token w) = Ok false ->
  protected fw (url_path request) ->
  storage_user w2 = storage_user (snd (AuthMiddleware svc fw request w)) ->
  user_authenticate svc email password = Ok (Some user) ->
  user_create_token svc user = Ok (Some token) ->
  let run := try_login svc email password w2 in
  ui_events (snd run)
  = (ui_events w2
     ++ [NavigateTo
           (PyStr (Str.removeprefix (url_path request) (scope_root_path request)))])%list
  ∧ storage_user (snd run) !! "auth_token" = Some (PyStr token).
Proof.
  intros Hcheck Hprot Hsession Huser Htoken run. subst run.
  rewrite (try_login_success svc email password w2 user token Huser Htoken).
  cbn [snd storage_user ui_events].
  apply guard_protected in Hprot.
  rewrite (AuthMiddleware_redirect svc fw request w Hcheck Hprot) in Hsession.
  cbn [snd redirected storage_user] in Hsession.
  rewrite Hsession, !lookup_insert_eq.
  done.
Qed.

Lemma login_returns_to_the_blocked_page_witness :
  let w := Example.world Example.stale_session Example.client_headers in
  let request := Example.request "/gui/demo" in
  let w2 := Example.world
              (storage_user (snd (AuthMiddleware Example.service gui_framework request w)))
              [] in
  let run := try_login Example.service "alice@example.org" "secret" w2 in
  user_check_token Example.service (session_token w) = Ok false
  ∧ protected gui_framework (url_path request)
  ∧ ui_events (snd run) = [NavigateTo (PyStr "/demo")]
  ∧ storage_user (snd run) !! "auth_token" = Some (PyStr "tok-alice").
Proof.
  intros w request w2 run.
  assert (user_check_token Example.service (session_token w) = Ok false) as Hcheck
    by reflexivity.
  assert (protected gui_framework (url_path request)) as Hprot
    by (apply guard_protected; reflexivity).
  split; [exact Hcheck|]. split; [exact Hprot|].
  exact (login_returns_to_the_blocked_page
           Example.service gui_framework request w w2
           "alice@example.org" "secret" Example.alice "tok-alice"
           Hcheck Hprot eq_refl eq_refl eq_refl).
Defined.

(** X14.  After a successful login the guard lets the session through:
    when the check accepts the token just stored, the next request, for
    any path, is passed to the rest of the stack with the single header
    [authorization: Bearer <token>], and the session is not changed
    again. *)
Theorem request_after_login_is_forwarded
    (svc : AuthService) (fw : Framework) (request : Request) (w w2 : World)
    (call_next : Request -> M Response)
    (email password : string) (user : User) (token : string) :
  user_authenticate svc email password = Ok (Some user) ->
  user_create_token svc user = Ok (Some token) ->
  user_check_token svc (PyStr token) = Ok true ->
  storage_user w2 = storage_user (snd (try_login svc email password w)) ->
  let w3 := snd (AuthMiddleware svc fw request w2) in
  handle svc fw call_next request w2 = call_next request w3
  ∧ List.filter is_authorization (scope_headers w3)
    = [("authorization", "Bearer " +:+ token)]
  ∧ storage_user w3 = storage_user w2.
Proof.
  intros Huser Htoken Hvalid Hsession w3. subst w3.
  rewrite (try_login_success svc email password w user token Huser Htoken)
    in Hsession.
  cbn [snd storage_user] in Hsession.
  assert (session_token w2 = PyStr token) as Hsess.
  { unfold session_token. by rewrite Hsession, lookup_insert_eq. }
  assert (AuthMiddleware svc fw request w2 = (Ok CallNext, forwarded w2)) as Hrun.
  { apply (AuthMiddleware_forward svc fw request w2 true);
      [by rewrite Hsess | reflexivity]. }
  rewrite Hrun. cbn [snd].
  split; [by apply handle_call_next|].
  split; [|reflexivity].
  cbn [forwarded scope_headers].
  by rewrite filter_authorization_bearer, Hsess.
Qed.

Lemma request_after_login_is_forwarded_witness :
  let w := Example.world Example.referred_session [] in
  let w2 := Example.world
              (storage_user (snd (try_login Example.service "alice@example.org" "secret" w)))
              Example.client_headers in
  let request := Example.request "/gui/demo" in
  let call_next := fun _ : Request => ret (RedirectResponse "/elsewhere") in
  let w3 := snd (AuthMiddleware Example.service gui_framework request w2) in
  user_check_token Example.service (PyStr "tok-alice") = Ok true
  ∧ handle Example.service gui_framework call_next request w2
    = call_next request w3
  ∧ List.filter is_authorization (scope_headers w3)
    = [("authorization", "Bearer tok-alice")]
  ∧ storage_user w3 = storage_user w2.
Proof.
  intros w w2 request call_next w3.
  assert (user_check_token Example.service (PyStr "tok-alice") = Ok true) as Hvalid
    by reflexivity.
  split; [exact Hvalid|].
  exact (request_after_login_is_forwarded
           Example.service gui_framework request w w2 call_next
           "alice@example.org" "secret" Example.alice "tok-alice"
           eq_refl eq_refl Hvalid eq_refl).
Defined.
